(** * The sqlite adapter of golang-plus/database-sql-sqlite

    The package is a thin adapter: every method of [rows], [transaction] and
    [database] makes one call into [database/sql] and annotates the error it
    gets back.  The calls into [database/sql] are the only effects of the
    package, so a method is embedded as a finite tree of such calls (type
    [go]), and a driver is a handler that answers each call over its own
    state. *)

From Stdlib Require Import String Ascii List ZArith Bool Lia.
From ExtLib Require Import Structures.Monad.
Import ListNotations.
Import MonadNotation.
Local Open Scope string_scope.
Local Open Scope monad_scope.

Set Implicit Arguments.

(** ** Errors: Go's [error] values and [github.com/golang-plus/errors] *)

Section Errors.

(** The low-level errors of [database/sql] and of the engine are opaque
    to the package. *)
Variable cause : Type.

(** Modelled from the spec: [github.com/golang-plus/errors] is not under
    [src/]; by section 7 a wrapped error keeps the original cause as it is
    and adds static context.  A non-nil [error] is a low-level one, or one
    made by [errors.Wrap], holding the message and the error it wraps. *)
Inductive error : Type :=
| Low (c : cause)
| Wrapped (msg : string) (inner : error).

(** The error wrapped directly, if any. *)
Definition Unwrap (e : error) : option error :=
  match e with
  | Low _ => None
  | Wrapped _ inner => Some inner
  end.

(** The innermost error of a chain of wrappers. *)
Fixpoint RootCause (e : error) : error :=
  match e with
  | Low _ => e
  | Wrapped _ inner => RootCause inner
  end.

(** The messages added on top of the root cause, outermost first. *)
Fixpoint Context (e : error) : list string :=
  match e with
  | Low _ => []
  | Wrapped msg inner => msg :: Context inner
  end.

(** [strconv.Quote], which [%q] applies to a string operand: a parameter. *)
Variable Quote : string -> string.

(** [fmt.Sprintf] for the formats of the package: text with [%q] verbs,
    each replaced by the next operand quoted.  A verb with no operand
    left prints [%!q(MISSING)]. *)
Fixpoint Sprintf (format : string) (args : list string) : string :=
  match format with
  | EmptyString => EmptyString
  | String "%" (String "q" rest) =>
      match args with
      | a :: args' => Quote a ++ Sprintf rest args'
      | [] => "%!q(MISSING)" ++ Sprintf rest []
      end
  | String c rest => String c (Sprintf rest args)
  end.

(** Modelled from the spec: [errors.Wrap(err, message)] (section 7). *)
Definition Wrap (err : error) (message : string) : error :=
  Wrapped message err.

(** Modelled from the spec: [errors.Wrapf(err, format, args...)]
    (section 7). *)
Definition Wrapf (err : error) (format : string) (args : list string) : error :=
  Wrapped (Sprintf format args) err.

End Errors.

Arguments Low {cause} c.

(** ** The calls into [database/sql], and programs over them *)

Section Adapter.

(** The values of [*sql.DB], [*sql.Tx], [*sql.Rows], [sql.Result] and
    [interface{}], and the low-level errors: all owned by the libraries
    below the package. *)
Variables sqlDB sqlTx sqlRows sqlResult value cause : Type.
Variable Quote : string -> string.

(** A Go [error]: [None] is [nil]. *)
Definition goerror : Type := option (error cause).

(** One constructor for each function of [database/sql] the package
    calls; the index is the Go result type. *)
Inductive call : Type -> Type :=
| sql_Open (driverName dataSourceName : string) : call (sqlDB * goerror)
| DB_Exec (db : sqlDB) (query : string) (args : list value) : call (sqlResult * goerror)
| DB_Query (db : sqlDB) (query : string) (args : list value) : call (sqlRows * goerror)
| DB_Begin (db : sqlDB) : call (sqlTx * goerror)
| Tx_Exec (tx : sqlTx) (query : string) (args : list value) : call (sqlResult * goerror)
| Tx_Query (tx : sqlTx) (query : string) (args : list value) : call (sqlRows * goerror)
| Tx_Rollback (tx : sqlTx) : call goerror
| Tx_Commit (tx : sqlTx) : call goerror
| Result_RowsAffected (res : sqlResult) : call (Z * goerror)
| Rows_Next (rs : sqlRows) : call bool
| Rows_Scan (rs : sqlRows) (dest : list value) : call goerror.

(** A call with its result type hidden, for traces. *)
Inductive issued : Type :=
| Issued {X : Type} (c : call X).

(** A method body: it returns, or makes a call and goes on with the
    answer. *)
Inductive go (R : Type) : Type :=
| Return (r : R)
| Call {X : Type} (c : call X) (k : X -> go R).

Arguments Return {R} r.
Arguments Call {R X} c k.

Fixpoint go_bind {A B : Type} (p : go A) (f : A -> go B) : go B :=
  match p with
  | Return a => f a
  | Call c k => Call c (fun x => go_bind (k x) f)
  end.

#[local] Instance Monad_go : Monad go :=
  {| ret := @Return; bind := @go_bind |}.

(** The call alone, returning its answer. *)
Definition invoke {X : Type} (c : call X) : go X := Call c Return.

(** *** Running a program against a driver *)

Section Run.

(** A driver: a state and an answer to every call. *)
Variable World : Type.
Variable driver : forall X : Type, call X -> World -> X * World.

(** The value returned and the driver's state afterwards. *)
Fixpoint run {R : Type} (p : go R) (w : World) : R * World :=
  match p with
  | Return r => (r, w)
  | Call c k => let (x, w') := driver c w in run (k x) w'
  end.

(** The calls made, in order. *)
Fixpoint trace {R : Type} (p : go R) (w : World) : list issued :=
  match p with
  | Return _ => []
  | Call c k => let (x, w') := driver c w in Issued c :: trace (k x) w'
  end.

End Run.

(** ** The package *)

(** [type rows struct { *sql.Rows }] *)
Record rows : Type := mk_rows { Rows : sqlRows }.

(** [type transaction struct { *sql.Tx }] *)
Record transaction : Type := mk_transaction { Tx : sqlTx }.

(** [type database struct { *sql.DB }] *)
Record database : Type := mk_database { DB : sqlDB }.

(** [func (r *rows) Next() bool] *)
Definition rows_Next (r : rows) : go bool :=
  invoke (Rows_Next (Rows r)).

(** [func (r *rows) Scan(dest ...interface{}) error] *)
Definition rows_Scan (r : rows) (dest : list value) : go goerror :=
  err <- invoke (Rows_Scan (Rows r) dest) ;;
  match err with
  | Some e => ret (Some (Wrap e "could not parse columns in current row"))
  | None => ret None
  end.

(** [func (t *transaction) Execute(statement string, args ...interface{}) (int64, error)] *)
Definition transaction_Execute (t : transaction) (statement : string)
    (args : list value) : go (Z * goerror) :=
  '(result, err) <- invoke (Tx_Exec (Tx t) statement args) ;;
  match err with
  | Some e =>
      ret (0%Z, Some (Wrapf Quote e "could not execute sql statement %q" [statement]))
  | None =>
      '(n, err) <- invoke (Result_RowsAffected result) ;;
      match err with
      | Some e => ret (0%Z, Some (Wrap e "could not get number of rows affected"))
      | None => ret (n, None)
      end
  end.

(** [func (t *transaction) Query(statement string, args ...interface{}) (sql2.Rows, error)];
    the interface value returned is [None] for [nil] and [Some r] for
    the pointer [&rows{rs}]. *)
Definition transaction_Query (t : transaction) (statement : string)
    (args : list value) : go (option rows * goerror) :=
  '(rs, err) <- invoke (Tx_Query (Tx t) statement args) ;;
  match err with
  | Some e => ret (None, Some (Wrapf Quote e "could not query rows %q" [statement]))
  | None => ret (Some (mk_rows rs), None)
  end.

(** [func (t *transaction) Rollback() error] *)
Definition transaction_Rollback (t : transaction) : go goerror :=
  err <- invoke (Tx_Rollback (Tx t)) ;;
  match err with
  | Some e => ret (Some (Wrap e "could not abort the transaction"))
  | None => ret None
  end.

(** [func (t *transaction) Commit() error] *)
Definition transaction_Commit (t : transaction) : go goerror :=
  err <- invoke (Tx_Commit (Tx t)) ;;
  match err with
  | Some e => ret (Some (Wrap e "could not commit the transaction"))
  | None => ret None
  end.

(** [func (d *database) Execute(statement string, args ...interface{}) (int64, error)] *)
Definition database_Execute (d : database) (statement : string)
    (args : list value) : go (Z * goerror) :=
  '(result, err) <- invoke (DB_Exec (DB d) statement args) ;;
  match err with
  | Some e =>
      ret (0%Z, Some (Wrapf Quote e "could not execute sql statement %q" [statement]))
  | None =>
      '(n, err) <- invoke (Result_RowsAffected result) ;;
      match err with
      | Some e => ret (0%Z, Some (Wrap e "could not get number of rows affected"))
      | None => ret (n, None)
      end
  end.

(** [func (d *database) Query(statement string, args ...interface{}) (sql2.Rows, error)] *)
Definition database_Query (d : database) (statement : string)
    (args : list value) : go (option rows * goerror) :=
  '(rs, err) <- invoke (DB_Query (DB d) statement args) ;;
  match err with
  | Some e => ret (None, Some (Wrapf Quote e "could not query rows %q" [statement]))
  | None => ret (Some (mk_rows rs), None)
  end.

(** [func (d *database) Begin() (sql2.Transaction, error)] *)
Definition database_Begin (d : database) : go (option transaction * goerror) :=
  '(tx, err) <- invoke (DB_Begin (DB d)) ;;
  match err with
  | Some e => ret (None, Some (Wrap e "could not start a transaction"))
  | None => ret (Some (mk_transaction tx), None)
  end.

(** [func NewDatabase(dataSource string) (sql2.Database, error)] *)
Definition NewDatabase (dataSource : string) : go (option database * goerror) :=
  '(db, err) <- invoke (sql_Open "sqlite3" dataSource) ;;
  match err with
  | Some e => ret (None, Some (Wrapf Quote e "could not open the database %q" [dataSource]))
  | None => ret (Some (mk_database db), None)
  end.

(** [func New(dataSource string) (sql2.Database, error)] *)
Definition New (dataSource : string) : go (option database * goerror) :=
  NewDatabase dataSource.

End Adapter.

Arguments Return {sqlDB sqlTx sqlRows sqlResult value cause R} r.
Arguments Call {sqlDB sqlTx sqlRows sqlResult value cause R X} c k.
Arguments Issued {sqlDB sqlTx sqlRows sqlResult value cause X} c.
Arguments invoke {sqlDB sqlTx sqlRows sqlResult value cause X} c.
Arguments run {sqlDB sqlTx sqlRows sqlResult value cause World} driver {R} p w.
Arguments trace {sqlDB sqlTx sqlRows sqlResult value cause World} driver {R} p w.
Arguments sql_Open {sqlDB sqlTx sqlRows sqlResult value cause}.
Arguments DB_Exec {sqlDB sqlTx sqlRows sqlResult value cause}.
Arguments DB_Query {sqlDB sqlTx sqlRows sqlResult value cause}.
Arguments DB_Begin {sqlDB sqlTx sqlRows sqlResult value cause}.
Arguments Tx_Exec {sqlDB sqlTx sqlRows sqlResult value cause}.
Arguments Tx_Query {sqlDB sqlTx sqlRows sqlResult value cause}.
Arguments Tx_Rollback {sqlDB sqlTx sqlRows sqlResult value cause}.
Arguments Tx_Commit {sqlDB sqlTx sqlRows sqlResult value cause}.
Arguments Result_RowsAffected {sqlDB sqlTx sqlRows sqlResult value cause}.
Arguments Rows_Next {sqlDB sqlTx sqlRows sqlResult value cause}.
Arguments Rows_Scan {sqlDB sqlTx sqlRows sqlResult value cause}.
Arguments rows_Next {sqlDB sqlTx sqlRows sqlResult value cause} r.
Arguments rows_Scan {sqlDB sqlTx sqlRows sqlResult value cause} r dest.
Arguments transaction_Execute {sqlDB sqlTx sqlRows sqlResult value cause} Quote t statement args.
Arguments transaction_Query {sqlDB sqlTx sqlRows sqlResult value cause} Quote t statement args.
Arguments transaction_Rollback {sqlDB sqlTx sqlRows sqlResult value cause} t.
Arguments transaction_Commit {sqlDB sqlTx sqlRows sqlResult value cause} t.
Arguments database_Execute {sqlDB sqlTx sqlRows sqlResult value cause} Quote d statement args.
Arguments database_Query {sqlDB sqlTx sqlRows sqlResult value cause} Quote d statement args.
Arguments database_Begin {sqlDB sqlTx sqlRows sqlResult value cause} d.
Arguments NewDatabase {sqlDB sqlTx sqlRows sqlResult value cause} Quote dataSource.
Arguments New {sqlDB sqlTx sqlRows sqlResult value cause} Quote dataSource.

(** ** The error taxonomy of the specification *)

(** The kinds of failure, named by the failing operation; the kinds of the
    operations that take a data source or a statement carry that text. *)
Inductive ErrorKind : Type :=
| OpenError (dataSource : string)
| ExecError (statement : string)
| AffectedCountError
| QueryError (statement : string)
| BeginError
| CommitError
| RollbackError
| ScanError.

Section Taxonomy.

Variable cause : Type.
Variable Quote : string -> string.

(** The context an error of each kind adds to its cause. *)
Definition kind_context (k : ErrorKind) : string :=
  match k with
  | OpenError dataSource => "could not open the database " ++ Quote dataSource
  | ExecError statement => "could not execute sql statement " ++ Quote statement
  | AffectedCountError => "could not get number of rows affected"
  | QueryError statement => "could not query rows " ++ Quote statement
  | BeginError => "could not start a transaction"
  | CommitError => "could not commit the transaction"
  | RollbackError => "could not abort the transaction"
  | ScanError => "could not parse columns in current row"
  end.

(** An error of kind [k] wrapping [c]. *)
Definition failure (k : ErrorKind) (c : error cause) : error cause :=
  Wrapped (kind_context k) c.

End Taxonomy.

(** Two kinds name the same failing operation. *)
Definition same_operation (k1 k2 : ErrorKind) : bool :=
  match k1, k2 with
  | OpenError _, OpenError _
  | ExecError _, ExecError _
  | AffectedCountError, AffectedCountError
  | QueryError _, QueryError _
  | BeginError, BeginError
  | CommitError, CommitError
  | RollbackError, RollbackError
  | ScanError, ScanError => true
  | _, _ => false
  end.

(** The data source or statement a kind carries. *)
Definition text_of (k : ErrorKind) : option string :=
  match k with
  | OpenError text | ExecError text | QueryError text => Some text
  | _ => None
  end.

#[export] Existing Instance Monad_go.

(** ** A reference engine

    The SQL engine and [database/sql] are not part of the package.  The
    definitions of this module stand for them in the statements that are
    about what the engine does: they follow the contract sections 3, 4
    and 8 of the specification give for the connection, the transaction
    and the cursor.  What a statement text means is left to a parameter
    ([Sql]). *)

Module Engine.

(** Modelled from the spec: a column value of a row. *)
Inductive datum : Type :=
| DInt (n : Z)
| DText (s : string)
| DNull.

Definition row : Type := list datum.

(** Modelled from the spec: the type a [Scan] destination points to. *)
Inductive kind : Type := KInt | KText.

(** Modelled from the spec: an [interface{}] passed to the package, a
    positional argument of a statement or a pointer to a variable of the
    caller (a [Scan] destination). *)
Inductive iface : Type :=
| VInt (n : Z)
| VText (s : string)
| Ptr (k : kind) (loc : nat).

(** Modelled from the spec: the SQL parser and executor (section 1 puts
    them out of scope), as the meaning of a statement text over the
    contents of a storage file. *)
Record Sql : Type := {
  store : Type;
  (** a newly created file *)
  empty : store;
  (** why a data source cannot be opened, if it cannot *)
  refuse : string -> option string;
  (** a non-query statement: the new contents and the affected-row
      count (or why it cannot be retrieved), or why execution fails *)
  execute : string -> list iface -> store -> (store * (Z + string)) + string;
  (** a query: the rows of its result stream and how the stream ends
      (exhausted, or an error while fetching), or why the query fails *)
  select : string -> list iface -> store -> (list row * option string) + string;
  (** the value a column value takes in a destination of a kind, if it
      converts *)
  convert : datum -> kind -> option datum
}.

Section Model.

Variable S : Sql.

(** Modelled from the spec: a transaction (section 4.2), Open until
    finalized, working on its own copy of the contents. *)
Record txn : Type := {
  tx_source : string;
  tx_work : store S;
  tx_done : bool
}.

(** Modelled from the spec: a cursor (section 4.3), forward-only over
    the result stream. *)
Record cursor : Type := {
  pending : list row;
  ending : option string;
  current : option row;
  lasterr : option string
}.

(** Modelled from the spec: the state below the package: the committed
    contents of each data source, the transactions and cursors handed
    out (a handle is an index), and the caller's variables that
    [Scan] destinations point to. *)
Record world : Type := {
  files : list (string * store S);
  txs : list txn;
  cursors : list cursor;
  heap : list (nat * datum)
}.

Definition init : world :=
  {| files := []; txs := []; cursors := []; heap := [] |}.

Fixpoint lookup {A : Type} (key : string) (l : list (string * A)) : option A :=
  match l with
  | [] => None
  | (k, a) :: l' => if String.eqb key k then Some a else lookup key l'
  end.

(** Modelled from the spec: the committed contents of a data source; a
    file that does not exist yet is created empty. *)
Definition contents (w : world) (dataSource : string) : store S :=
  match lookup dataSource (files w) with
  | Some st => st
  | None => empty S
  end.

Definition set_contents (w : world) (dataSource : string) (st : store S) : world :=
  {| files := (dataSource, st) :: files w; txs := txs w;
     cursors := cursors w; heap := heap w |}.

Fixpoint replace {A : Type} (i : nat) (a : A) (l : list A) : list A :=
  match l, i with
  | [], _ => []
  | _ :: l', O => a :: l'
  | x :: l', Datatypes.S i' => x :: replace i' a l'
  end.

Definition set_txn (w : world) (i : nat) (t : txn) : world :=
  {| files := files w; txs := replace i t (txs w);
     cursors := cursors w; heap := heap w |}.

Definition set_cursor (w : world) (i : nat) (c : cursor) : world :=
  {| files := files w; txs := txs w;
     cursors := replace i c (cursors w); heap := heap w |}.

Definition store_at (w : world) (loc : nat) (d : datum) : world :=
  {| files := files w; txs := txs w;
     cursors := cursors w; heap := (loc, d) :: heap w |}.

(** The value of a caller's variable. *)
Fixpoint load (h : list (nat * datum)) (loc : nat) : option datum :=
  match h with
  | [] => None
  | (l, d) :: h' => if Nat.eqb loc l then Some d else load h' loc
  end.

Definition goerr : Type := option (error string).

Definition ErrTxDone : error string :=
  Low "sql: transaction has already been committed or rolled back".

Definition ErrBadHandle : error string := Low "sql: invalid handle".

(** Modelled from the spec: Open (section 4.1) fails if the file or the
    driver cannot be initialized. *)
Definition open (driverName dataSource : string) (w : world)
  : (string * goerr) * world :=
  if negb (String.eqb driverName "sqlite3")
  then ((dataSource, Some (Low "sql: unknown driver")), w)
  else match refuse S dataSource with
       | Some c => ((dataSource, Some (Low c)), w)
       | None => ((dataSource, None), w)
       end.

(** Modelled from the spec: a new cursor over a result stream, before
    its first row. *)
Definition new_cursor (w : world) (rs : list row) (e : option string)
  : nat * world :=
  (length (cursors w),
   {| files := files w; txs := txs w;
      cursors := cursors w ++
        [{| pending := rs; ending := e; current := None; lasterr := None |}];
      heap := heap w |}).

(** Modelled from the spec: Execute on the connection (section 4.1)
    takes effect at once. *)
Definition db_exec (db query : string) (args : list iface) (w : world)
  : ((Z + string) * goerr) * world :=
  match execute S query args (contents w db) with
  | inl (st, n) => ((n, None), set_contents w db st)
  | inr c => ((inr c, Some (Low c)), w)
  end.

(** Modelled from the spec: Query on the connection (section 4.1)
    returns a live cursor. *)
Definition db_query (db query : string) (args : list iface) (w : world)
  : (nat * goerr) * world :=
  match select S query args (contents w db) with
  | inl (rs, e) => let (i, w') := new_cursor w rs e in ((i, None), w')
  | inr c => ((O, Some (Low c)), w)
  end.

(** Modelled from the spec: Begin (section 4.1) starts a new
    transactional context bound to the connection. *)
Definition db_begin (db : string) (w : world) : (nat * goerr) * world :=
  ((length (txs w), None),
   {| files := files w;
      txs := txs w ++
        [{| tx_source := db; tx_work := contents w db; tx_done := false |}];
      cursors := cursors w; heap := heap w |}).

(** Modelled from the spec: Execute in a transaction (section 4.2):
    scoped to the transaction's context; after finalization it is
    refused. *)
Definition tx_exec (tx : nat) (query : string) (args : list iface) (w : world)
  : ((Z + string) * goerr) * world :=
  match nth_error (txs w) tx with
  | None => ((inr "", Some ErrBadHandle), w)
  | Some t =>
      if tx_done t then ((inr "", Some ErrTxDone), w)
      else match execute S query args (tx_work t) with
           | inl (st, n) =>
               ((n, None),
                set_txn w tx {| tx_source := tx_source t; tx_work := st;
                                tx_done := false |})
           | inr c => ((inr c, Some (Low c)), w)
           end
  end.

(** Modelled from the spec: Query in a transaction (section 4.2). *)
Definition tx_query (tx : nat) (query : string) (args : list iface) (w : world)
  : (nat * goerr) * world :=
  match nth_error (txs w) tx with
  | None => ((O, Some ErrBadHandle), w)
  | Some t =>
      if tx_done t then ((O, Some ErrTxDone), w)
      else match select S query args (tx_work t) with
           | inl (rs, e) => let (i, w') := new_cursor w rs e in ((i, None), w')
           | inr c => ((O, Some (Low c)), w)
           end
  end.

Definition finalized (t : txn) : txn :=
  {| tx_source := tx_source t; tx_work := tx_work t; tx_done := true |}.

(** Modelled from the spec: Rollback (section 4.2) discards all
    statements issued within the transaction. *)
Definition tx_rollback (tx : nat) (w : world) : goerr * world :=
  match nth_error (txs w) tx with
  | None => (Some ErrBadHandle, w)
  | Some t =>
      if tx_done t then (Some ErrTxDone, w)
      else (None, set_txn w tx (finalized t))
  end.

(** Modelled from the spec: Commit (section 4.2) durably applies all
    statements issued within the transaction. *)
Definition tx_commit (tx : nat) (w : world) : goerr * world :=
  match nth_error (txs w) tx with
  | None => (Some ErrBadHandle, w)
  | Some t =>
      if tx_done t then (Some ErrTxDone, w)
      else (None,
            set_contents (set_txn w tx (finalized t)) (tx_source t) (tx_work t))
  end.

(** Modelled from the spec: the affected-row count of a result
    (section 4.1), which may not be retrievable. *)
Definition rows_affected (res : Z + string) (w : world) : (Z * goerr) * world :=
  match res with
  | inl n => ((n, None), w)
  | inr c => ((0%Z, Some (Low c)), w)
  end.

(** Modelled from the spec: Next (section 4.3) advances to the next
    row; false when exhausted or on an underlying error, which it
    only records. *)
Definition next (rs : nat) (w : world) : bool * world :=
  match nth_error (cursors w) rs with
  | None => (false, w)
  | Some c =>
      match pending c with
      | r :: rest =>
          (true,
           set_cursor w rs {| pending := rest; ending := ending c;
                              current := Some r; lasterr := None |})
      | [] =>
          (false,
           set_cursor w rs {| pending := []; ending := ending c;
                              current := None; lasterr := ending c |})
      end
  end.

(** Modelled from the spec: decoding the columns into the destinations,
    position by position (section 4.3); the first failure stops it. *)
Fixpoint assign (cols : row) (dest : list iface) (w : world) : goerr * world :=
  match cols, dest with
  | d :: cols', Ptr k loc :: dest' =>
      match convert S d k with
      | Some d' => assign cols' dest' (store_at w loc d')
      | None => (Some (Low "sql: Scan error: converting column value"), w)
      end
  | _ :: _, _ :: _ => (Some (Low "sql: Scan error: destination not a pointer"), w)
  | _, _ => (None, w)
  end.

(** Modelled from the spec: Scan (section 4.3) decodes the current
    row's columns into the destinations, positionally, by count and
    convertible type. *)
Definition scan (rs : nat) (dest : list iface) (w : world) : goerr * world :=
  match nth_error (cursors w) rs with
  | None => (Some ErrBadHandle, w)
  | Some c =>
      match current c with
      | None => (Some (Low "sql: Scan called without calling Next"), w)
      | Some cols =>
          if negb (Nat.eqb (length dest) (length cols))
          then (Some (Low "sql: wrong number of destination arguments in Scan"), w)
          else assign cols dest w
      end
  end.

Definition ecall : Type -> Type :=
  call string nat nat (Z + string) iface string.

(** Modelled from the spec: the engine as a driver, answering each call
    of the package. *)
Definition driver (X : Type) (c : ecall X) : world -> X * world :=
  match c in call _ _ _ _ _ _ X return world -> X * world with
  | sql_Open driverName dataSource => open driverName dataSource
  | DB_Exec db q args => db_exec db q args
  | DB_Query db q args => db_query db q args
  | DB_Begin db => db_begin db
  | Tx_Exec tx q args => tx_exec tx q args
  | Tx_Query tx q args => tx_query tx q args
  | Tx_Rollback tx => tx_rollback tx
  | Tx_Commit tx => tx_commit tx
  | Result_RowsAffected res => rows_affected res
  | Rows_Next rs => next rs
  | Rows_Scan rs dest => scan rs dest
  end.

(** *** Opening without connecting

    [open] above follows the specification, which has Open fail for a
    file that cannot be opened.  [database/sql] (not under [src/]) does
    otherwise: [sql.Open] looks the driver name up and keeps the data
    source, without creating a connection; the file is opened by the first
    call that needs a connection. *)

(** [sql.Open] as [database/sql] documents it: only an unknown driver
    name is an error. *)
Definition open_lazy (driverName dataSource : string) (w : world)
  : (string * goerr) * world :=
  if negb (String.eqb driverName "sqlite3")
  then ((dataSource, Some (Low "sql: unknown driver")), w)
  else ((dataSource, None), w).

(** Getting a connection for a call on [*sql.DB]: the error of opening the
    file, if it cannot be opened. *)
Definition connect (db : string) : goerr :=
  match refuse S db with
  | Some c => Some (Low c)
  | None => None
  end.

(** The engine behind a [database/sql] that opens lazily: [sql.Open] does
    not connect, the calls on the connection do, the other calls are
    those of [driver]. *)
Definition lazy_driver (X : Type) (c : ecall X) : world -> X * world :=
  match c in call _ _ _ _ _ _ X return world -> X * world with
  | sql_Open driverName dataSource => open_lazy driverName dataSource
  | DB_Exec db q args =>
      fun w =>
        match connect db with
        | Some e => ((inr "", Some e), w)
        | None => db_exec db q args w
        end
  | DB_Query db q args =>
      fun w =>
        match connect db with
        | Some e => ((O, Some e), w)
        | None => db_query db q args w
        end
  | DB_Begin db =>
      fun w =>
        match connect db with
        | Some e => ((O, Some e), w)
        | None => db_begin db w
        end
  | Tx_Exec tx q args => tx_exec tx q args
  | Tx_Query tx q args => tx_query tx q args
  | Tx_Rollback tx => tx_rollback tx
  | Tx_Commit tx => tx_commit tx
  | Result_RowsAffected res => rows_affected res
  | Rows_Next rs => next rs
  | Rows_Scan rs dest => scan rs dest
  end.

(** *** What a caller can observe of the engine *)

(** The contents a query reads: the committed ones on a connection, the
    working ones in a transaction that is not finalized. *)
Definition visible (w : world) (h : database string + transaction nat)
  : option (store S) :=
  match h with
  | inl d => Some (contents w (DB d))
  | inr t =>
      match nth_error (txs w) (Tx t) with
      | Some tn => if tx_done tn then None else Some (tx_work tn)
      | None => None
      end
  end.

(** The result stream behind the cursor a query returned, or the error
    the query returned. *)
Definition result_set (out : (option (rows nat) * goerr) * world)
  : (list row * option string) + goerr :=
  match out with
  | ((Some r, None), w) =>
      match nth_error (cursors w) (Rows r) with
      | Some c => inl (pending c, ending c)
      | None => inr (Some ErrBadHandle)
      end
  | ((_, e), _) => inr e
  end.

(** The destinations take the columns: as many pointers as columns, each
    column converting to what its pointer points to. *)
Fixpoint decodable (cols : row) (dest : list iface) : bool :=
  match cols, dest with
  | [], [] => true
  | d :: cols', Ptr k _ :: dest' =>
      match convert S d k with
      | Some _ => decodable cols' dest'
      | None => false
      end
  | _, _ => false
  end.

(** The variable written and the value it gets, for each position in
    turn. *)
Fixpoint decoded (cols : row) (dest : list iface) : list (nat * datum) :=
  match cols, dest with
  | d :: cols', Ptr k loc :: dest' =>
      match convert S d k with
      | Some d' => (loc, d') :: decoded cols' dest'
      | None => []
      end
  | _, _ => []
  end.

End Model.

End Engine.

(** ** Callers

    The ways section 8 of the specification uses the package. *)

Section Callers.

Variables sqlDB sqlTx sqlRows sqlResult value cause : Type.
Variable Quote : string -> string.

Let prog : Type -> Type := go sqlDB sqlTx sqlRows sqlResult value cause.
Let err : Type := goerror cause.

(** [n] successive calls of [Next] on a cursor, with what each returned. *)
Fixpoint nexts (n : nat) (r : rows sqlRows) : prog (list bool) :=
  match n with
  | O => ret []
  | S n' => b <- rows_Next r ;; bs <- nexts n' r ;; ret (b :: bs)
  end.

(** Begin, one Execute in the transaction, then [finish] (Commit or
    Rollback); the errors of the three steps. *)
Definition in_transaction (d : database sqlDB) (statement : string)
    (args : list value) (finish : transaction sqlTx -> prog err)
  : prog (err * err * err) :=
  '(t, e0) <- database_Begin d ;;
  match t with
  | None => ret (e0, None, None)
  | Some t =>
      '(_, e1) <- transaction_Execute Quote t statement args ;;
      e2 <- finish t ;;
      ret (e0, e1, e2)
  end.

(** A query on a connection or in a transaction. *)
Definition query_on (h : database sqlDB + transaction sqlTx) (statement : string)
    (args : list value) : prog (option (rows sqlRows) * err) :=
  match h with
  | inl d => database_Query Quote d statement args
  | inr t => transaction_Query Quote t statement args
  end.

(** A query on a fresh handle of a data source. *)
Definition requery (dataSource statement : string) (args : list value)
  : prog (option (rows sqlRows) * err) :=
  '(d, e) <- New Quote dataSource ;;
  match d with
  | None => ret (None, e)
  | Some d => database_Query Quote d statement args
  end.

End Callers.

Arguments nexts {sqlDB sqlTx sqlRows sqlResult value cause} n r.
Arguments in_transaction {sqlDB sqlTx sqlRows sqlResult value cause} Quote d statement args finish.
Arguments query_on {sqlDB sqlTx sqlRows sqlResult value cause} Quote h statement args.
Arguments requery {sqlDB sqlTx sqlRows sqlResult value cause} Quote dataSource statement args.

(** ** A small instance of the engine, for concrete runs *)

Module Demo.

Import Engine.

Definition dquote : ascii := ascii_of_nat 34.
Definition backslash : ascii := ascii_of_nat 92.

(** [strconv.Quote] on printable ASCII text: the text between double
    quotes, with a backslash before each double quote and backslash. *)
Fixpoint escape (s : string) : string :=
  match s with
  | EmptyString => EmptyString
  | String c rest =>
      if (Ascii.eqb c dquote || Ascii.eqb c backslash)%bool
      then String backslash (String c (escape rest))
      else String c (escape rest)
  end.

Definition Quote (s : string) : string :=
  String dquote (escape s ++ String dquote EmptyString).

Definition datum_of (v : iface) : datum :=
  match v with
  | VInt n => DInt n
  | VText s => DText s
  | Ptr _ _ => DNull
  end.

(** One table [t] with one column; the statements of the end-to-end
    example of section 8, a statement whose affected-row count is not
    available, and a query whose stream breaks after its first row. *)
Definition sql : Sql :=
  {| store := list row;
     empty := [];
     refuse := fun dataSource =>
       if String.eqb dataSource "/no/such/dir/test.db"
       then Some "unable to open database file" else None;
     execute := fun q args st =>
       if String.eqb q "CREATE TABLE t(id INTEGER)" then inl (st, inl 0%Z)
       else if String.eqb q "INSERT INTO t VALUES (?)" then
         match args with
         | [v] => inl ((st ++ [[datum_of v]])%list, inl 1%Z)
         | _ => inr "wrong number of arguments"
         end
       else if String.eqb q "INSERT INTO t VALUES (1)" then
         inl ((st ++ [[DInt 1]])%list, inl 1%Z)
       else if String.eqb q "DELETE FROM t" then
         inl ([], inl (Z.of_nat (length st)))
       else if String.eqb q "VACUUM" then
         inl (st, inr "RowsAffected is not supported")
       else inr "syntax error";
     select := fun q args st =>
       if String.eqb q "SELECT id FROM t" then inl (st, None)
       else if String.eqb q "SELECT id FROM t -- interrupted" then
         inl (firstn 1 st, Some "interrupted")
       else inr "syntax error";
     convert := fun d k =>
       match d, k with
       | DInt _, KInt => Some d
       | DText _, KText => Some d
       | _, _ => None
       end |}.

Definition dgo : Type -> Type := go string nat nat (Z + string) iface string.

(** The demo engine as a driver. *)
Definition drv : forall X : Type, ecall X -> world sql -> X * world sql :=
  driver (S := sql).

(** The demo engine behind a [database/sql] that opens lazily. *)
Definition lazy_drv : forall X : Type, ecall X -> world sql -> X * world sql :=
  lazy_driver (S := sql).

(** A file [test.db] holding the rows 1 and 2. *)
Definition two_rows : world sql :=
  set_contents (init sql) "test.db" [[DInt 1]; [DInt 2]].

(** [test.db] with a transaction begun on it. *)
Definition begun : world sql :=
  snd (run drv (database_Begin (mk_database "test.db")) two_rows).

(** A cursor (handle 0) on the two rows, after one Next. *)
Definition on_first_row : world sql :=
  snd (run drv
         ('(r, _) <- requery Quote "test.db" "SELECT id FROM t" [] ;;
          match r with
          | Some r => rows_Next r
          | None => ret false
          end)
         two_rows).

(** A cursor (handle 0) whose stream broke before its first row. *)
Definition broken : world sql :=
  snd (run drv (requery Quote "test.db" "SELECT id FROM t -- interrupted" [])
         (init sql)).

(** The cursor of [broken]. *)
Definition broken_cursor : cursor :=
  {| pending := []; ending := Some "interrupted"; current := None; lasterr := None |}.

(** The cursor of [on_first_row]. *)
Definition first_row_cursor : cursor :=
  {| pending := [[DInt 2]]; ending := None; current := Some [DInt 1];
     lasterr := None |}.

(** The contents of [two_rows] with a row 3 inserted. *)
Definition three_rows : store sql := [[DInt 1]; [DInt 2]; [DInt 3]].

(** The end-to-end example of section 8; the variable [id] is at
    address 0. *)
Definition end_to_end : dgo (option (Z * goerr * goerr * bool * goerr * bool)) :=
  '(d, _) <- New Quote "test.db" ;;
  match d with
  | None => ret None
  | Some d =>
      '(t, _) <- database_Begin d ;;
      match t with
      | None => ret None
      | Some t =>
          _ <- transaction_Execute Quote t "CREATE TABLE t(id INTEGER)" [] ;;
          '(n, e1) <- transaction_Execute Quote t "INSERT INTO t VALUES (1)" [] ;;
          e2 <- transaction_Commit t ;;
          '(r, _) <- database_Query Quote d "SELECT id FROM t" [] ;;
          match r with
          | None => ret None
          | Some r =>
              b1 <- rows_Next r ;;
              e3 <- rows_Scan r [Ptr KInt 0] ;;
              b2 <- rows_Next r ;;
              ret (Some (n, e1, e2, b1, e3, b2))
          end
      end
  end.

End Demo.

(** ** The operations of the package, one by one *)

(** The first call an operation delegates to, with the error part of its
    answer. *)
Record delegation (sqlDB sqlTx sqlRows sqlResult value cause : Type) : Type := {
  answer : Type;
  the_call : call sqlDB sqlTx sqlRows sqlResult value cause answer;
  error_of : answer -> goerror cause
}.

Section Operations.

Variables sqlDB sqlTx sqlRows sqlResult value cause : Type.
Variable Quote : string -> string.

Let prog : Type -> Type := go sqlDB sqlTx sqlRows sqlResult value cause.

(** An operation with its operands. *)
Inductive operation : Type :=
| OpNewDatabase (dataSource : string)
| OpNew (dataSource : string)
| OpExecute (d : database sqlDB) (statement : string) (args : list value)
| OpQuery (d : database sqlDB) (statement : string) (args : list value)
| OpBegin (d : database sqlDB)
| OpTxExecute (t : transaction sqlTx) (statement : string) (args : list value)
| OpTxQuery (t : transaction sqlTx) (statement : string) (args : list value)
| OpCommit (t : transaction sqlTx)
| OpRollback (t : transaction sqlTx)
| OpScan (r : rows sqlRows) (dest : list value).

(** The operation, keeping only the error it returns to the caller. *)
Definition returned_error (op : operation) : prog (goerror cause) :=
  match op with
  | OpNewDatabase ds => out <- NewDatabase Quote ds ;; ret (snd out)
  | OpNew ds => out <- New Quote ds ;; ret (snd out)
  | OpExecute d s args => out <- database_Execute Quote d s args ;; ret (snd out)
  | OpQuery d s args => out <- database_Query Quote d s args ;; ret (snd out)
  | OpBegin d => out <- database_Begin d ;; ret (snd out)
  | OpTxExecute t s args => out <- transaction_Execute Quote t s args ;; ret (snd out)
  | OpTxQuery t s args => out <- transaction_Query Quote t s args ;; ret (snd out)
  | OpCommit t => transaction_Commit t
  | OpRollback t => transaction_Rollback t
  | OpScan r dest => rows_Scan r dest
  end.

(** The call into [database/sql] the operation starts with. *)
Definition delegate (op : operation)
  : delegation sqlDB sqlTx sqlRows sqlResult value cause :=
  match op with
  | OpNewDatabase ds | OpNew ds =>
      {| the_call := sql_Open "sqlite3" ds; error_of := snd |}
  | OpExecute d s args => {| the_call := DB_Exec (DB d) s args; error_of := snd |}
  | OpQuery d s args => {| the_call := DB_Query (DB d) s args; error_of := snd |}
  | OpBegin d => {| the_call := DB_Begin (DB d); error_of := snd |}
  | OpTxExecute t s args => {| the_call := Tx_Exec (Tx t) s args; error_of := snd |}
  | OpTxQuery t s args => {| the_call := Tx_Query (Tx t) s args; error_of := snd |}
  | OpCommit t => {| the_call := Tx_Commit (Tx t); error_of := fun e => e |}
  | OpRollback t => {| the_call := Tx_Rollback (Tx t); error_of := fun e => e |}
  | OpScan r dest => {| the_call := Rows_Scan (Rows r) dest; error_of := fun e => e |}
  end.

(** The kind of error the operation reports when that call fails. *)
Definition kind_of (op : operation) : ErrorKind :=
  match op with
  | OpNewDatabase ds | OpNew ds => OpenError ds
  | OpExecute _ s _ | OpTxExecute _ s _ => ExecError s
  | OpQuery _ s _ | OpTxQuery _ s _ => QueryError s
  | OpBegin _ => BeginError
  | OpCommit _ => CommitError
  | OpRollback _ => RollbackError
  | OpScan _ _ => ScanError
  end.

(** The [sql.Result] an Execute goes on with when that call succeeds: it
    asks it for the affected-row count.  The other operations make no
    second call. *)
Definition result_of (op : operation)
  : answer (delegate op) -> option sqlResult :=
  match op return answer (delegate op) -> option sqlResult with
  | OpExecute _ _ _ | OpTxExecute _ _ _ => fun x => Some (fst x)
  | _ => fun _ => None
  end.

(** The error [out] returned to the caller is of kind [k] and wraps
    exactly [e]: [e] is what unwrapping gives back, the root cause is
    that of [e], and one message is added on top of those of [e]. *)
Definition surfaces (e : error cause) (k : ErrorKind) (out : goerror cause) : Prop :=
  exists err : error cause,
    out = Some err /\ err = failure Quote k e
    /\ Unwrap err = Some e /\ RootCause err = RootCause e
    /\ Context err = kind_context Quote k :: Context e.

(** Commit and Rollback are the operations that end a transaction. *)
Definition is_finalizing (op : operation) : bool :=
  match op with
  | OpCommit _ | OpRollback _ => true
  | _ => false
  end.

(** The calls of [database/sql] that end a transaction. *)
Definition finalizes (i : issued sqlDB sqlTx sqlRows sqlResult value cause) : bool :=
  match i with
  | Issued c =>
      match c with
      | Tx_Commit _ | Tx_Rollback _ => true
      | _ => false
      end
  end.

End Operations.

Arguments returned_error {sqlDB sqlTx sqlRows sqlResult value cause} Quote op.
Arguments delegate {sqlDB sqlTx sqlRows sqlResult value cause} op.
Arguments kind_of {sqlDB sqlTx sqlRows value} op.
Arguments result_of {sqlDB sqlTx sqlRows sqlResult value cause} op x.
Arguments surfaces {cause} Quote e k out.
Arguments is_finalizing {sqlDB sqlTx sqlRows value} op.
Arguments finalizes {sqlDB sqlTx sqlRows sqlResult value cause} i.

(** * Properties *)

(** ** Formatting and running *)

Local Open Scope list_scope.

Lemma append_empty (s : string) : (s ++ "")%string = s.
Proof.
  induction s as [| c s IH]; simpl; [reflexivity | now rewrite IH].
Qed.

Section AnyDriver.

Variables sqlDB sqlTx sqlRows sqlResult value cause : Type.
Variable Quote : string -> string.
Variable World : Type.
Variable driver :
  forall X : Type, call sqlDB sqlTx sqlRows sqlResult value cause X -> World -> X * World.

Let prog : Type -> Type := go sqlDB sqlTx sqlRows sqlResult value cause.

(** The messages of the package are the contexts of the taxonomy. *)
Lemma Wrapf_open (e : error cause) (ds : string) :
  Wrapf Quote e "could not open the database %q" [ds] = failure Quote (OpenError ds) e.
Proof. unfold Wrapf, failure; simpl; now rewrite append_empty. Qed.

Lemma Wrapf_exec (e : error cause) (s : string) :
  Wrapf Quote e "could not execute sql statement %q" [s] = failure Quote (ExecError s) e.
Proof. unfold Wrapf, failure; simpl; now rewrite append_empty. Qed.

Lemma Wrapf_query (e : error cause) (s : string) :
  Wrapf Quote e "could not query rows %q" [s] = failure Quote (QueryError s) e.
Proof. unfold Wrapf, failure; simpl; now rewrite append_empty. Qed.

(** Running a sequence: the first part, then the rest from where the
    first part left the driver. *)
Lemma run_bind (A B : Type) (p : prog A) (f : A -> prog B) (w : World) :
  run driver (go_bind p f) w = let (a, w') := run driver p w in run driver (f a) w'.
Proof.
  revert w; induction p as [a | X c k IH]; intros w; simpl.
  - reflexivity.
  - destruct (driver c w) as [x w']. apply IH.
Qed.

(** Case analysis on the answer of a call that returns a value and an
    error. *)
Tactic Notation "answer" constr(c) "as" ident(x) ident(w) :=
  let e := fresh "e" in
  destruct c as [[x [e |]] w]; simpl.

(** ** Execute and Query on the connection *)

(** C1. Database.Execute returns the driver's affected-row count and a nil
    error when the execution and the retrieval of the count both succeed;
    when the execution fails it returns 0 and an ExecError wrapping the
    statement text and the cause; when the execution succeeds and the
    count cannot be retrieved it returns 0 and an AffectedCountError
    wrapping that cause. *)
Theorem database_Execute_spec (d : database sqlDB) (statement : string)
    (args : list value) (w : World) :
  let '((result, err), w1) := driver (DB_Exec (DB d) statement args) w in
  match err with
  | Some e =>
      run driver (database_Execute Quote d statement args) w
      = ((0%Z, Some (failure Quote (ExecError statement) e)), w1)
  | None =>
      let '((n, err'), w2) := driver (Result_RowsAffected result) w1 in
      match err' with
      | Some e =>
          run driver (database_Execute Quote d statement args) w
          = ((0%Z, Some (failure Quote AffectedCountError e)), w2)
      | None =>
          run driver (database_Execute Quote d statement args) w = ((n, None), w2)
      end
  end.
Proof.
  unfold database_Execute; simpl.
  answer (driver (DB_Exec (DB d) statement args) w) as result w1.
  - now rewrite Wrapf_exec.
  - answer (driver (Result_RowsAffected result) w1) as n w2; reflexivity.
Qed.

(** C8. Database.Query returns a cursor over the driver's rows and a nil
    error when the underlying query succeeds; when it fails it returns a
    nil cursor and a QueryError wrapping the statement text and the
    cause. *)
Theorem database_Query_spec (d : database sqlDB) (statement : string)
    (args : list value) (w : World) :
  let '((rs, err), w1) := driver (DB_Query (DB d) statement args) w in
  match err with
  | Some e =>
      run driver (database_Query Quote d statement args) w
      = ((None, Some (failure Quote (QueryError statement) e)), w1)
  | None =>
      run driver (database_Query Quote d statement args) w
      = ((Some (mk_rows rs), None), w1)
      /\ (forall w', run driver (rows_Next (mk_rows rs)) w' = driver (Rows_Next rs) w')
  end.
Proof.
  unfold database_Query; simpl.
  answer (driver (DB_Query (DB d) statement args) w) as rs w1.
  - now rewrite Wrapf_query.
  - split; [reflexivity |].
    intros w'; unfold rows_Next; simpl. now destruct (driver (Rows_Next rs) w').
Qed.

(** ** Opening *)

(** C3, as the code has it.  NewDatabase and New pass the identifier
    unchanged to sql.Open, under the driver name sqlite3.  When sql.Open
    reports no error they succeed with a usable handle: its Execute,
    Query and Begin act on the connection sql.Open returned.  When
    sql.Open reports an error they return a nil handle and an OpenError
    wrapping that (non-nil) cause and the identifier.  They do not detect
    a path that cannot be opened: with a sql.Open that does not connect,
    every identifier gives a handle and a nil error, and for a path that
    cannot be opened the failure comes from the first operation that
    needs a connection (Begin returns a BeginError wrapping the cause). *)
Theorem NewDatabase_spec (dataSource : string) (w : World) :
  (let '((db, err), w1) := driver (sql_Open "sqlite3" dataSource) w in
   match err with
   | None =>
       run driver (NewDatabase Quote dataSource) w = ((Some (mk_database db), None), w1)
       /\ run driver (New Quote dataSource) w = ((Some (mk_database db), None), w1)
       /\ (forall s args w',
             hd_error (trace driver (database_Execute Quote (mk_database db) s args) w')
             = Some (Issued (DB_Exec db s args)))
       /\ (forall s args w',
             trace driver (database_Query Quote (mk_database db) s args) w'
             = [Issued (DB_Query db s args)])
       /\ (forall w',
             trace driver (database_Begin (mk_database db)) w' = [Issued (DB_Begin db)])
   | Some e =>
       run driver (NewDatabase Quote dataSource) w
       = ((None, Some (failure Quote (OpenError dataSource) e)), w1)
       /\ run driver (New Quote dataSource) w
          = ((None, Some (failure Quote (OpenError dataSource) e)), w1)
       /\ Unwrap (failure Quote (OpenError dataSource) e) = Some e
   end)
  /\ (forall (S : Engine.Sql) (ew : Engine.world S),
        run (Engine.lazy_driver (S := S)) (NewDatabase Quote dataSource) ew
        = ((Some (mk_database dataSource), None), ew)
        /\ run (Engine.lazy_driver (S := S)) (New Quote dataSource) ew
           = ((Some (mk_database dataSource), None), ew)
        /\ (forall c : string,
              Engine.refuse S dataSource = Some c ->
              run (Engine.lazy_driver (S := S))
                (database_Begin (mk_database dataSource)) ew
              = ((None, Some (failure Quote BeginError (Low c))), ew))).
Proof.
  split.
  - unfold New, NewDatabase; simpl.
    answer (driver (sql_Open "sqlite3" dataSource) w) as db w1.
    + rewrite Wrapf_open. repeat split.
    + repeat split; intros.
      * unfold database_Execute; simpl.
        now destruct (driver (DB_Exec db s args) w') as [[res [e |]] w2].
      * unfold database_Query; simpl.
        now destruct (driver (DB_Query db s args) w') as [[rs [e |]] w2].
      * unfold database_Begin; simpl.
        now destruct (driver (DB_Begin db) w') as [[tx [e |]] w2].
  - intros S ew. repeat split.
    intros c Hc. unfold database_Begin; simpl.
    unfold Engine.connect. now rewrite Hc.
Qed.

(** ** The transaction against the connection *)

(** C2. Transaction.Execute and Transaction.Query are Database.Execute and
    Database.Query with the first call made on the transaction instead of
    the connection: after that call the two go on in the same way, so
    whenever the driver answers the two calls alike, the values, the
    errors and the state afterwards are the same. *)
Theorem transaction_like_database (t : transaction sqlTx) (d : database sqlDB)
    (statement : string) (args : list value) :
  (exists k : sqlResult * goerror cause -> prog (Z * goerror cause),
      transaction_Execute Quote t statement args = Call (Tx_Exec (Tx t) statement args) k
      /\ database_Execute Quote d statement args = Call (DB_Exec (DB d) statement args) k)
  /\ (exists k : sqlRows * goerror cause -> prog (option (rows sqlRows) * goerror cause),
      transaction_Query Quote t statement args = Call (Tx_Query (Tx t) statement args) k
      /\ database_Query Quote d statement args = Call (DB_Query (DB d) statement args) k)
  /\ (forall w w' : World,
      driver (Tx_Exec (Tx t) statement args) w = driver (DB_Exec (DB d) statement args) w' ->
      run driver (transaction_Execute Quote t statement args) w
      = run driver (database_Execute Quote d statement args) w')
  /\ (forall w w' : World,
      driver (Tx_Query (Tx t) statement args) w = driver (DB_Query (DB d) statement args) w' ->
      run driver (transaction_Query Quote t statement args) w
      = run driver (database_Query Quote d statement args) w').
Proof.
  split; [| split; [| split]].
  - eexists; split; reflexivity.
  - eexists; split; reflexivity.
  - intros w w' H. unfold transaction_Execute, database_Execute; simpl.
    now rewrite H.
  - intros w w' H. unfold transaction_Query, database_Query; simpl.
    now rewrite H.
Qed.

(** ** Errors *)

(** C9. Whatever the operation and whatever the driver answers: if the
    call the operation delegates to fails, the caller gets an error of the
    operation's kind that wraps exactly the driver's error, and that call
    is the only one made; an Execute whose first call succeeded asks once
    for the affected-row count, and a failure there is returned in the
    same way; the caller gets nil only when no call failed.  Each call is
    made once, in every case. *)
Theorem failures_surface_once (op : operation sqlDB sqlTx sqlRows value) (w : World) :
  let c := the_call (delegate op) in
  let (x, w1) := driver c w in
  match error_of (delegate op) x with
  | Some e =>
      surfaces Quote e (kind_of op) (fst (run driver (returned_error Quote op) w))
      /\ snd (run driver (returned_error Quote op) w) = w1
      /\ trace driver (returned_error Quote op) w = [Issued c]
  | None =>
      match result_of op x with
      | None =>
          run driver (returned_error Quote op) w = (None, w1)
          /\ trace driver (returned_error Quote op) w = [Issued c]
      | Some result =>
          let '((n, err), w2) := driver (Result_RowsAffected result) w1 in
          match err with
          | Some e =>
              surfaces Quote e AffectedCountError
                (fst (run driver (returned_error Quote op) w))
              /\ snd (run driver (returned_error Quote op) w) = w2
          | None => run driver (returned_error Quote op) w = (None, w2)
          end
          /\ trace driver (returned_error Quote op) w
             = [Issued c; Issued (Result_RowsAffected result)]
      end
  end.
Proof.
  assert (S : forall (e : error cause) k, surfaces Quote e k (Some (failure Quote k e))).
  { intros e k. exists (failure Quote k e). repeat split. }
  destruct op; simpl;
    unfold New, NewDatabase, database_Execute, database_Query, database_Begin,
      transaction_Execute, transaction_Query, transaction_Commit,
      transaction_Rollback, rows_Scan; simpl;
    match goal with
    | |- context [driver ?c w] => destruct (driver c w) as [a w1] eqn:E1
    end;
    try destruct a as [a err]; simpl;
    try (destruct a as [e |]; simpl; [rewrite ?E1; simpl; repeat split; apply S
                                     | rewrite ?E1; simpl; repeat split]; fail);
    destruct err as [e |]; simpl;
    rewrite ?Wrapf_open, ?Wrapf_exec, ?Wrapf_query;
    try (repeat split; apply S);
    try (repeat split; fail);
    destruct (driver (Result_RowsAffected a) w1) as [[n [e |]] w2]; simpl;
    repeat split; apply S.
Qed.

(** ** Zero values *)

(** C10, as the code has it.  An Execute (on the connection or in a
    transaction) that returns an error returns the count 0; Query, Begin,
    NewDatabase and New return a nil handle exactly when they return an
    error. *)
Theorem zero_value_with_error (d : database sqlDB) (t : transaction sqlTx)
    (text : string) (args : list value) (w : World) :
  (snd (fst (run driver (database_Execute Quote d text args) w)) <> None ->
   fst (fst (run driver (database_Execute Quote d text args) w)) = 0%Z)
  /\ (snd (fst (run driver (transaction_Execute Quote t text args) w)) <> None ->
      fst (fst (run driver (transaction_Execute Quote t text args) w)) = 0%Z)
  /\ (fst (fst (run driver (database_Query Quote d text args) w)) = None <->
      snd (fst (run driver (database_Query Quote d text args) w)) <> None)
  /\ (fst (fst (run driver (transaction_Query Quote t text args) w)) = None <->
      snd (fst (run driver (transaction_Query Quote t text args) w)) <> None)
  /\ (fst (fst (run driver (database_Begin d) w)) = None <->
      snd (fst (run driver (database_Begin d) w)) <> None)
  /\ (fst (fst (run driver (NewDatabase Quote text) w)) = None <->
      snd (fst (run driver (NewDatabase Quote text) w)) <> None)
  /\ (fst (fst (run driver (New Quote text) w)) = None <->
      snd (fst (run driver (New Quote text) w)) <> None).
Proof.
  unfold New, NewDatabase, database_Execute, database_Query, database_Begin,
    transaction_Execute, transaction_Query; simpl.
  repeat split;
    match goal with
    | |- context [driver ?c w] => destruct (driver c w) as [[a [e |]] w1]
    end; simpl; try congruence;
    try match goal with
    | |- context [driver ?c ?w'] => destruct (driver c w') as [[n [e |]] w2]
    end; simpl; congruence.
Qed.

End AnyDriver.

(** ** Lists updated by index *)

Lemma nth_error_replace (A : Type) (l : list A) (i : nat) (a x : A) :
  nth_error l i = Some x -> nth_error (Engine.replace i a l) i = Some a.
Proof.
  revert i; induction l as [| y l IH]; intros [| i] H; simpl in *;
    try discriminate; auto.
Qed.

Lemma nth_error_fresh (A : Type) (l : list A) (a : A) :
  nth_error (l ++ [a]) (length l) = Some a.
Proof.
  rewrite nth_error_app2 by lia. now rewrite Nat.sub_diag.
Qed.

Section OnEngine.

Import Engine.

Variable S : Sql.
Variable Quote : string -> string.

Let drv := driver (S := S).
Let prog : Type -> Type := go string nat nat (Z + string) iface string.

(** ** The cursor *)

Lemma run_Next (r : rows nat) (w : world S) :
  run drv (rows_Next r) w = next (Rows r) w.
Proof.
  unfold rows_Next; simpl. now destruct (next (Rows r) w).
Qed.

Lemma run_nexts_step (n : nat) (r : rows nat) (w : world S) :
  fst (run drv (nexts (Datatypes.S n) r) w)
  = fst (next (Rows r) w) :: fst (run drv (nexts n r) (snd (next (Rows r) w))).
Proof.
  simpl. destruct (next (Rows r) w) as [b w1]; simpl.
  rewrite (run_bind drv). now destruct (run drv (nexts n r) w1).
Qed.

Lemma nexts_stream (rs : list row) :
  forall (w : world S) (r : rows nat) (c : cursor),
    nth_error (cursors w) (Rows r) = Some c ->
    pending c = rs ->
    fst (run drv (nexts (length rs + 1) r) w) = repeat true (length rs) ++ [false].
Proof.
  induction rs as [| x rs IH]; intros w r c Hc Hp.
  - simpl length; simpl Nat.add. rewrite run_nexts_step.
    unfold next; rewrite Hc, Hp; simpl. reflexivity.
  - simpl length; simpl Nat.add. rewrite run_nexts_step.
    unfold next at 1 2; rewrite Hc, Hp. cbn [fst snd repeat app].
    f_equal. eapply IH.
    + unfold set_cursor; cbn [cursors]. eapply nth_error_replace; eassumption.
    + reflexivity.
Qed.

Lemma run_query_on (h : database string + transaction nat) (q : string)
    (args : list iface) (w : world S) (st : store S) (rs : list row)
    (e : option string) :
  visible w h = Some st ->
  select S q args st = inl (rs, e) ->
  run drv (query_on Quote h q args) w
  = ((Some (mk_rows (length (cursors w))), None), snd (new_cursor w rs e)).
Proof.
  intros Hv Hs. destruct h as [d | t]; simpl in Hv.
  - injection Hv as <-.
    unfold query_on, database_Query; simpl. unfold db_query. now rewrite Hs.
  - unfold query_on, transaction_Query; simpl. unfold tx_query.
    destruct (nth_error (txs w) (Tx t)) as [tn |]; [| discriminate].
    destruct (tx_done tn); [discriminate |]. injection Hv as <-.
    now rewrite Hs.
Qed.

(** C6. A query whose result set has N rows returns a cursor on which the
    first N calls of Next return true and the next one returns false;
    with no rows, the first call returns false. *)
Theorem Next_true_for_each_row (h : database string + transaction nat)
    (q : string) (args : list iface) (w : world S) (st : store S)
    (rs : list row) (e : option string) :
  visible w h = Some st ->
  select S q args st = inl (rs, e) ->
  let '((r, err), w1) := run drv (query_on Quote h q args) w in
  err = None
  /\ exists c : rows nat,
      r = Some c
      /\ fst (run drv (nexts (length rs + 1) c) w1) = repeat true (length rs) ++ [false]
      /\ (rs = [] -> fst (run drv (rows_Next c) w1) = false).
Proof.
  intros Hv Hs. rewrite (run_query_on h q args w Hv Hs).
  split; [reflexivity |]. eexists; split; [reflexivity |].
  assert (Hc : nth_error (cursors (snd (new_cursor w rs e)))
                 (Rows (mk_rows (length (cursors w))))
               = Some {| pending := rs; ending := e; current := None; lasterr := None |}).
  { simpl. apply nth_error_fresh. }
  split.
  - eapply nexts_stream; [exact Hc | reflexivity].
  - intros ->. rewrite run_Next. unfold next. now rewrite Hc.
Qed.

(** C4. On a cursor with no row left, Next returns false, whether the
    stream is exhausted or the driver reported an error; in the second
    case the error stays in the cursor below.  What Next returns is the
    boolean of the driver's Next and nothing else. *)
Theorem Next_false_at_end (r : rows nat) (w : world S) (c : cursor) :
  nth_error (cursors w) (Rows r) = Some c ->
  pending c = [] ->
  run drv (rows_Next r) w = drv (Rows_Next (Rows r)) w
  /\ (ending c = None -> fst (run drv (rows_Next r) w) = false)
  /\ (forall e : string,
        ending c = Some e ->
        fst (run drv (rows_Next r) w) = false
        /\ option_map (@lasterr)
             (nth_error (cursors (snd (run drv (rows_Next r) w))) (Rows r))
           = Some (Some e)).
Proof.
  intros Hc Hp. rewrite run_Next. split; [reflexivity |].
  unfold next; rewrite Hc, Hp; simpl. split; [reflexivity |].
  intros e He. split; [reflexivity |].
  rewrite (nth_error_replace _ _ _ Hc). simpl. now rewrite He.
Qed.

(** ** Scan *)

Lemma decodable_length (cols : row) :
  forall dest : list iface, decodable S cols dest = true -> length dest = length cols.
Proof.
  induction cols as [| d cols IH]; intros [| [n | s | k loc] dest] H;
    simpl in *; try discriminate; auto.
  destruct (convert S d k); [| discriminate]. f_equal; auto.
Qed.

Lemma decodable_at (cols : row) :
  forall (dest : list iface) (i : nat) (d : datum) (k : kind) (loc : nat),
    decodable S cols dest = true ->
    nth_error cols i = Some d ->
    nth_error dest i = Some (Ptr k loc) ->
    exists d', convert S d k = Some d' /\ In (loc, d') (decoded S cols dest).
Proof.
  induction cols as [| d0 cols IH]; intros [| [n | s | k0 loc0] dest] i d k loc H Hc Hd;
    simpl in *; try discriminate; try (destruct i; discriminate).
  destruct (convert S d0 k0) as [d0' |] eqn:E; [| discriminate].
  destruct i as [| i]; simpl in *.
  - injection Hc as <-. injection Hd as <- <-. exists d0'. split; [exact E | now left].
  - destruct (IH dest i d k loc H Hc Hd) as [d' [E' Hin]].
    exists d'. split; [exact E' | now right].
Qed.

Lemma assign_decodable (cols : row) :
  forall (dest : list iface) (w : world S),
    decodable S cols dest = true ->
    fst (assign cols dest w) = None
    /\ heap (snd (assign cols dest w)) = rev (decoded S cols dest) ++ heap w
    /\ files (snd (assign cols dest w)) = files w
    /\ txs (snd (assign cols dest w)) = txs w
    /\ cursors (snd (assign cols dest w)) = cursors w.
Proof.
  induction cols as [| d cols IH]; intros [| [n | s | k loc] dest] w H;
    simpl in *; try discriminate; auto.
  destruct (convert S d k) as [d' |]; [| discriminate].
  destruct (IH dest (store_at w loc d') H) as [H1 [H2 [H3 [H4 H5]]]].
  repeat split; auto.
  rewrite H2. simpl. now rewrite <- app_assoc.
Qed.

Lemma assign_undecodable (cols : row) :
  forall (dest : list iface) (w : world S),
    length dest = length cols ->
    decodable S cols dest = false ->
    exists msg : string, fst (assign cols dest w) = Some (Low msg).
Proof.
  induction cols as [| d cols IH]; intros [| [n | s | k loc] dest] w L H;
    simpl in *; try discriminate; try (eexists; reflexivity).
  destruct (convert S d k) as [d' |]; [| eexists; reflexivity].
  apply IH; [now injection L | exact H].
Qed.

Lemma load_written (l : list (nat * datum)) (h : list (nat * datum))
    (loc : nat) (d : datum) :
  NoDup (map fst l) -> In (loc, d) l -> load (l ++ h) loc = Some d.
Proof.
  induction l as [| [l0 d0] l IH]; intros N Hin; simpl in *; [contradiction |].
  inversion N as [| ? ? Hnot N']; subst.
  destruct Hin as [E | Hin].
  - injection E as -> ->. now rewrite Nat.eqb_refl.
  - destruct (Nat.eqb_spec loc l0) as [-> | _].
    + exfalso. apply Hnot. change l0 with (fst (l0, d)). now apply in_map.
    + auto.
Qed.

Lemma run_Scan (r : rows nat) (dest : list iface) (w : world S) :
  run drv (rows_Scan r dest) w
  = (match fst (scan (Rows r) dest w) with
     | Some e => Some (failure Quote ScanError e)
     | None => None
     end, snd (scan (Rows r) dest w)).
Proof.
  unfold rows_Scan; simpl. now destruct (scan (Rows r) dest w) as [[e |] w1].
Qed.

(** C5. On a cursor positioned on a row: when there are as many
    destinations as columns and every column converts to its
    destination, Scan returns nil and has stored the columns in the
    destinations position by position; otherwise (among others when
    the counts differ, or when a column does not convert) it returns a
    ScanError wrapping the cause the driver gave. *)
Theorem Scan_decodes (r : rows nat) (dest : list iface) (w : world S)
    (c : cursor) (cols : row) :
  nth_error (cursors w) (Rows r) = Some c ->
  current c = Some cols ->
  (decodable S cols dest = true ->
   let (err, w') := run drv (rows_Scan r dest) w in
   err = None
   /\ heap w' = rev (decoded S cols dest) ++ heap w
   /\ (NoDup (map fst (decoded S cols dest)) ->
       forall (i : nat) (d : datum) (k : kind) (loc : nat),
         nth_error cols i = Some d ->
         nth_error dest i = Some (Ptr k loc) ->
         load (heap w') loc = convert S d k))
  /\ (decodable S cols dest = false ->
      exists cause : error string,
        fst (drv (Rows_Scan (Rows r) dest) w) = Some cause
        /\ fst (run drv (rows_Scan r dest) w) = Some (failure Quote ScanError cause))
  /\ (length dest <> length cols -> decodable S cols dest = false)
  /\ (forall (i : nat) (d : datum) (k : kind) (loc : nat),
        nth_error cols i = Some d ->
        nth_error dest i = Some (Ptr k loc) ->
        convert S d k = None ->
        decodable S cols dest = false).
Proof.
  intros Hc Hcur. rewrite run_Scan. split; [| split; [| split]].
  - intros Hd. unfold scan; rewrite Hc, Hcur.
    rewrite (decodable_length _ _ Hd), Nat.eqb_refl; simpl.
    destruct (assign_decodable cols dest w Hd) as [H1 [H2 _]].
    rewrite H1. split; [reflexivity |]. split; [exact H2 |].
    intros N i d k loc Hi Hj.
    destruct (decodable_at _ _ _ Hd Hi Hj) as [d' [E Hin]].
    rewrite H2, E. apply load_written.
    + rewrite map_rev. now apply NoDup_rev.
    + now apply in_rev in Hin.
  - intros Hd. simpl. unfold scan; rewrite Hc, Hcur.
    destruct (Nat.eqb_spec (length dest) (length cols)) as [L | L]; simpl.
    + destruct (assign_undecodable cols dest w L Hd) as [msg Hm].
      exists (Low msg). rewrite Hm. now split.
    + eexists; split; reflexivity.
  - intros L. destruct (decodable S cols dest) eqn:Hd; [| reflexivity].
    exfalso. apply L. now apply decodable_length.
  - intros i d k loc Hi Hj E. destruct (decodable S cols dest) eqn:Hd; [| reflexivity].
    destruct (decodable_at _ _ _ Hd Hi Hj) as [d' [E' _]]. congruence.
Qed.

(** ** Transactions *)

Lemma run_Begin (d : database string) (w : world S) :
  run drv (database_Begin d) w
  = ((Some (mk_transaction (length (txs w))), None), snd (db_begin (DB d) w)).
Proof. reflexivity. Qed.

Lemma run_tx_Execute (t : transaction nat) (s : string) (args : list iface)
    (w : world S) :
  snd (run drv (transaction_Execute Quote t s args) w) = snd (tx_exec (Tx t) s args w).
Proof.
  unfold transaction_Execute; simpl.
  destruct (tx_exec (Tx t) s args w) as [[res [e |]] w1]; simpl; [reflexivity |].
  now destruct res.
Qed.

Lemma run_Rollback (t : transaction nat) (w : world S) :
  run drv (transaction_Rollback t) w
  = (match fst (tx_rollback (Tx t) w) with
     | Some e => Some (failure Quote RollbackError e)
     | None => None
     end, snd (tx_rollback (Tx t) w)).
Proof.
  unfold transaction_Rollback; simpl. now destruct (tx_rollback (Tx t) w) as [[e |] w1].
Qed.

Lemma run_Commit (t : transaction nat) (w : world S) :
  run drv (transaction_Commit t) w
  = (match fst (tx_commit (Tx t) w) with
     | Some e => Some (failure Quote CommitError e)
     | None => None
     end, snd (tx_commit (Tx t) w)).
Proof.
  unfold transaction_Commit; simpl. now destruct (tx_commit (Tx t) w) as [[e |] w1].
Qed.

(** Begin and one Execute: the transaction is still open, works on the
    contents the statement left (the committed ones if it failed), and
    nothing else has changed. *)
Lemma begun_and_executed (ds ins : string) (args : list iface) (w : world S) :
  let t := mk_transaction (length (txs w)) in
  let w1 := snd (run drv (transaction_Execute Quote t ins args)
                   (snd (db_begin ds w))) in
  files w1 = files w /\ cursors w1 = cursors w
  /\ exists tn : txn S,
      nth_error (txs w1) (Tx t) = Some tn
      /\ tx_done tn = false /\ tx_source tn = ds
      /\ tx_work tn = match execute S ins args (contents w ds) with
                      | inl (st, _) => st
                      | inr _ => contents w ds
                      end.
Proof.
  intros t w1; subst w1. rewrite run_tx_Execute. subst t.
  unfold tx_exec, db_begin; cbn [snd txs Tx]. rewrite nth_error_fresh.
  cbn [tx_done tx_work tx_source].
  change (contents _ ds) with (contents w ds) at 1.
  destruct (execute S ins args (contents w ds)) as [[st n] | c]; cbn [snd].
  - unfold set_txn; cbn [files cursors txs]. repeat split.
    eexists; split; [eapply nth_error_replace, nth_error_fresh |].
    repeat split.
  - cbn [files cursors txs]. repeat split.
    eexists; split; [apply nth_error_fresh |]. repeat split.
Qed.

Lemma run_in_transaction (ds ins : string) (args : list iface) (w : world S)
    (finish : transaction nat -> prog (goerror string)) :
  let t := mk_transaction (length (txs w)) in
  let w1 := snd (run drv (transaction_Execute Quote t ins args)
                   (snd (db_begin ds w))) in
  snd (fst (run drv (in_transaction Quote (mk_database ds) ins args finish) w))
  = fst (run drv (finish t) w1)
  /\ snd (run drv (in_transaction Quote (mk_database ds) ins args finish) w)
     = snd (run drv (finish t) w1).
Proof.
  intros t w1; subst t w1. unfold in_transaction.
  unfold bind, Monad_go.
  rewrite (run_bind drv), run_Begin.
  rewrite (run_bind drv).
  destruct (run drv (transaction_Execute Quote _ ins args) _) as [[n e1] w1].
  rewrite (run_bind drv). cbn [snd].
  destruct (run drv (finish _) w1) as [e2 w2]. now split.
Qed.

Lemma contents_set (w : world S) (ds : string) (st : store S) :
  contents (set_contents w ds st) ds = st.
Proof.
  unfold contents, set_contents; simpl. now rewrite String.eqb_refl.
Qed.

(** What a query on a fresh handle finds depends on the committed
    contents of the data source only. *)
Lemma requery_reads (ds q : string) (args : list iface) (w w' : world S) :
  contents w ds = contents w' ds ->
  cursors w = cursors w' ->
  result_set (run drv (requery Quote ds q args) w)
  = result_set (run drv (requery Quote ds q args) w').
Proof.
  intros Hc Hk. unfold requery, New, NewDatabase; simpl. unfold open; simpl.
  destruct (refuse S ds) as [c |]; [reflexivity |].
  unfold database_Query; simpl. unfold db_query; simpl. rewrite Hc.
  destruct (select S q args (contents w' ds)) as [[rs e] | c]; [| reflexivity].
  simpl. rewrite Hk, !nth_error_fresh. reflexivity.
Qed.

(** C7. Begin, an insert, then Rollback: the committed contents are what
    they were, and a query on a fresh handle finds what it found before.
    Begin, an insert that executes, then Commit: the committed contents
    are those the insert produced, and a query on a fresh handle finds
    them. *)
Theorem Rollback_discards_Commit_persists (ds ins : string) (args : list iface)
    (w : world S) :
  (let out := run drv (in_transaction Quote (mk_database ds) ins args
                         transaction_Rollback) w in
   snd (fst out) = None
   /\ files (snd out) = files w
   /\ forall (q : string) (qargs : list iface),
       result_set (run drv (requery Quote ds q qargs) (snd out))
       = result_set (run drv (requery Quote ds q qargs) w))
  /\ (forall (st : store S) (n : Z + string),
        execute S ins args (contents w ds) = inl (st, n) ->
        let out := run drv (in_transaction Quote (mk_database ds) ins args
                              transaction_Commit) w in
        snd (fst out) = None
        /\ contents (snd out) ds = st
        /\ forall (q : string) (qargs : list iface),
            result_set (run drv (requery Quote ds q qargs) (snd out))
            = result_set (run drv (requery Quote ds q qargs) (set_contents w ds st))).
Proof.
  destruct (begun_and_executed ds ins args w) as [Hf [Hk [tn [Ht [Hd [Hs Hw]]]]]].
  split.
  - destruct (run_in_transaction ds ins args w transaction_Rollback) as [E1 E2].
    cbv zeta. rewrite E1, E2, run_Rollback. unfold tx_rollback.
    rewrite Ht, Hd; cbn [fst snd]. unfold set_txn; cbn [files].
    split; [reflexivity |]. split; [exact Hf |].
    intros q qargs. apply requery_reads.
    + unfold contents; cbn [files]. now rewrite Hf.
    + cbn [cursors]. exact Hk.
  - intros st n He. rewrite He in Hw.
    destruct (run_in_transaction ds ins args w transaction_Commit) as [E1 E2].
    cbv zeta. rewrite E1, E2, run_Commit. unfold tx_commit.
    rewrite Ht, Hd; cbn [fst snd]. rewrite Hs, Hw.
    split; [reflexivity |]. split; [apply contents_set |].
    intros q qargs. apply requery_reads.
    + now rewrite !contents_set.
    + unfold set_contents, set_txn; cbn [cursors]. exact Hk.
Qed.

End OnEngine.
(** ** Concrete runs *)

(** The end-to-end example: the insert reports one row, Commit succeeds,
    the query yields one row whose column scans to 1, then Next is
    false. *)
Example end_to_end_run :
  fst (run Demo.drv Demo.end_to_end (Engine.init Demo.sql))
  = Some (1%Z, None, None, true, None, false)
  /\ Engine.load (Engine.heap (snd (run Demo.drv Demo.end_to_end (Engine.init Demo.sql)))) 0
     = Some (Engine.DInt 1).
Proof. split; reflexivity. Qed.

(** An insert with one argument affects one row. *)
Example insert_affects_one_row :
  fst (run Demo.drv
         (database_Execute Demo.Quote (mk_database "test.db")
            "INSERT INTO t VALUES (?)" [Engine.VInt 3])
         Demo.two_rows)
  = (1%Z, None).
Proof. reflexivity. Qed.

(** With the Open of the specification ([Engine.open]), a refused data
    source: the OpenError carries the quoted path and the engine's
    cause. *)
Example open_refused :
  fst (run Demo.drv (New Demo.Quote "/no/such/dir/test.db") (Engine.init Demo.sql))
  = (None,
     Some (Wrapped
             (String.append "could not open the database "
                (Demo.Quote "/no/such/dir/test.db"))
             (Low "unable to open database file"))).
Proof. reflexivity. Qed.

Lemma transaction_like_database_witness :
  Demo.drv (Tx_Exec 0 "BOGUS" []) Demo.begun
  = Demo.drv (DB_Exec "test.db" "BOGUS" []) Demo.begun
  /\ run Demo.drv (transaction_Execute Demo.Quote (mk_transaction 0) "BOGUS" []) Demo.begun
     = run Demo.drv (database_Execute Demo.Quote (mk_database "test.db") "BOGUS" [])
         Demo.begun.
Proof.
  assert (H : Demo.drv (Tx_Exec 0 "BOGUS" []) Demo.begun
              = Demo.drv (DB_Exec "test.db" "BOGUS" []) Demo.begun)
    by reflexivity.
  split; [exact H |].
  exact (proj1 (proj2 (proj2
           (transaction_like_database Demo.Quote Demo.drv
              (mk_transaction 0) (mk_database "test.db") "BOGUS" [])))
           Demo.begun Demo.begun H).
Defined.

Lemma Next_false_at_end_witness :
  nth_error (Engine.cursors Demo.broken) 0 = Some Demo.broken_cursor
  /\ Engine.pending Demo.broken_cursor = []
  /\ fst (run Demo.drv (rows_Next (mk_rows 0)) Demo.broken) = false
  /\ option_map (@Engine.lasterr)
       (nth_error
          (Engine.cursors (snd (run Demo.drv (rows_Next (mk_rows 0)) Demo.broken))) 0)
     = Some (Some "interrupted").
Proof.
  assert (H1 : nth_error (Engine.cursors Demo.broken) (Rows (mk_rows 0))
               = Some Demo.broken_cursor) by reflexivity.
  assert (H2 : Engine.pending Demo.broken_cursor = []) by reflexivity.
  split; [exact H1 |]. split; [exact H2 |].
  exact (proj2 (proj2 (Next_false_at_end (S := Demo.sql) (mk_rows 0) Demo.broken H1 H2))
           "interrupted" eq_refl).
Defined.

Lemma Scan_decodes_witness :
  nth_error (Engine.cursors Demo.on_first_row) 0 = Some Demo.first_row_cursor
  /\ Engine.current Demo.first_row_cursor = Some [Engine.DInt 1]
  /\ (Engine.decodable Demo.sql [Engine.DInt 1] [Engine.Ptr Engine.KInt 7] = true
      /\ run Demo.drv (rows_Scan (mk_rows 0) [Engine.Ptr Engine.KInt 7]) Demo.on_first_row
         = (None, Engine.store_at Demo.on_first_row 7 (Engine.DInt 1)))
  /\ (Engine.decodable Demo.sql [Engine.DInt 1] [] = false
      /\ exists cause : error string,
          fst (Demo.drv (Rows_Scan 0 []) Demo.on_first_row) = Some cause
          /\ fst (run Demo.drv (rows_Scan (mk_rows 0) []) Demo.on_first_row)
             = Some (failure Demo.Quote ScanError cause)).
Proof.
  assert (H1 : nth_error (Engine.cursors Demo.on_first_row) (Rows (mk_rows 0))
               = Some Demo.first_row_cursor) by reflexivity.
  assert (H2 : Engine.current Demo.first_row_cursor = Some [Engine.DInt 1])
    by reflexivity.
  split; [exact H1 |]. split; [exact H2 |]. split.
  - split; reflexivity.
  - split; [reflexivity |].
    exact (proj1 (proj2 (Scan_decodes Demo.Quote (mk_rows 0) [] Demo.on_first_row H1 H2))
             eq_refl).
Defined.

Lemma Next_true_for_each_row_witness :
  Engine.visible Demo.two_rows (inl (mk_database "test.db"))
  = Some [[Engine.DInt 1]; [Engine.DInt 2]]
  /\ Engine.select Demo.sql "SELECT id FROM t" [] [[Engine.DInt 1]; [Engine.DInt 2]]
     = inl ([[Engine.DInt 1]; [Engine.DInt 2]], None)
  /\ let '((r, err), w1) :=
       run Demo.drv
         (query_on Demo.Quote (inl (mk_database "test.db")) "SELECT id FROM t" [])
         Demo.two_rows in
     err = None
     /\ exists c : rows nat,
         r = Some c
         /\ fst (run Demo.drv (nexts 3 c) w1) = [true; true; false]
         /\ ([[Engine.DInt 1]; [Engine.DInt 2]] = [] ->
             fst (run Demo.drv (rows_Next c) w1) = false).
Proof.
  assert (H1 : Engine.visible Demo.two_rows (inl (mk_database "test.db"))
               = Some [[Engine.DInt 1]; [Engine.DInt 2]]) by reflexivity.
  assert (H2 : Engine.select Demo.sql "SELECT id FROM t" []
                 [[Engine.DInt 1]; [Engine.DInt 2]]
               = inl ([[Engine.DInt 1]; [Engine.DInt 2]], None)) by reflexivity.
  split; [exact H1 |]. split; [exact H2 |].
  exact (Next_true_for_each_row Demo.Quote (inl (mk_database "test.db"))
           "SELECT id FROM t" [] Demo.two_rows H1 H2).
Defined.

Lemma Rollback_discards_Commit_persists_witness :
  Engine.execute Demo.sql "INSERT INTO t VALUES (?)" [Engine.VInt 3]
    (Engine.contents Demo.two_rows "test.db")
  = inl (Demo.three_rows, inl 1%Z)
  /\ Engine.contents
       (snd (run Demo.drv
               (in_transaction Demo.Quote (mk_database "test.db")
                  "INSERT INTO t VALUES (?)" [Engine.VInt 3] transaction_Commit)
               Demo.two_rows))
       "test.db"
     = Demo.three_rows
  /\ Engine.files
       (snd (run Demo.drv
               (in_transaction Demo.Quote (mk_database "test.db")
                  "INSERT INTO t VALUES (?)" [Engine.VInt 3] transaction_Rollback)
               Demo.two_rows))
     = Engine.files Demo.two_rows.
Proof.
  assert (H : Engine.execute Demo.sql "INSERT INTO t VALUES (?)" [Engine.VInt 3]
                (Engine.contents Demo.two_rows "test.db")
              = inl (Demo.three_rows, inl 1%Z)) by reflexivity.
  split; [exact H |].
  pose proof (Rollback_discards_Commit_persists Demo.Quote "test.db"
                "INSERT INTO t VALUES (?)" [Engine.VInt 3] Demo.two_rows) as [R C].
  split.
  - exact (proj1 (proj2 (C Demo.three_rows (inl 1%Z) H))).
  - exact (proj1 (proj2 R)).
Defined.

(** What the two transactions leave for a fresh handle on [two_rows]:
    the two rows after Rollback, the three rows after Commit. *)
Example fresh_handle_after_transaction :
  Engine.result_set
    (run Demo.drv (requery Demo.Quote "test.db" "SELECT id FROM t" [])
       (snd (run Demo.drv
               (in_transaction Demo.Quote (mk_database "test.db")
                  "INSERT INTO t VALUES (?)" [Engine.VInt 3] transaction_Rollback)
               Demo.two_rows)))
  = inl ([[Engine.DInt 1]; [Engine.DInt 2]], None)
  /\ Engine.result_set
       (run Demo.drv (requery Demo.Quote "test.db" "SELECT id FROM t" [])
          (snd (run Demo.drv
                  (in_transaction Demo.Quote (mk_database "test.db")
                     "INSERT INTO t VALUES (?)" [Engine.VInt 3] transaction_Commit)
                  Demo.two_rows)))
     = inl ([[Engine.DInt 1]; [Engine.DInt 2]; [Engine.DInt 3]], None).
Proof. split; reflexivity. Qed.

(** C10, as stated, fails: deleting from the empty table returns the
    count 0 together with a nil error. *)
Lemma Execute_zero_with_nil_error :
  let out := fst (run Demo.drv
                    (database_Execute Demo.Quote (mk_database "test.db")
                       "DELETE FROM t" [])
                    (Engine.init Demo.sql)) in
  out = (0%Z, None) /\ ~ (fst out = 0%Z <-> snd out <> None).
Proof.
  split; [reflexivity |]. intros [H _]. now apply H.
Qed.

Lemma zero_value_with_error_witness :
  snd (fst (run Demo.drv
              (database_Execute Demo.Quote (mk_database "test.db") "BOGUS" [])
              Demo.two_rows)) <> None
  /\ fst (fst (run Demo.drv
                 (database_Execute Demo.Quote (mk_database "test.db") "BOGUS" [])
                 Demo.two_rows)) = 0%Z.
Proof.
  assert (H : snd (fst (run Demo.drv
                          (database_Execute Demo.Quote (mk_database "test.db") "BOGUS" [])
                          Demo.two_rows)) <> None)
    by (vm_compute; discriminate).
  split; [exact H |].
  exact (proj1 (zero_value_with_error Demo.Quote Demo.drv (mk_database "test.db")
                  (mk_transaction 0) "BOGUS" [] Demo.two_rows) H).
Defined.

(** ** Further properties of the operations *)

Section EveryDriver.

Variables sqlDB sqlTx sqlRows sqlResult value cause : Type.
Variable Quote : string -> string.
Variable World : Type.
Variable driver :
  forall X : Type, call sqlDB sqlTx sqlRows sqlResult value cause X -> World -> X * World.

(** X1. Transaction.Execute, whatever the driver: the driver's count and nil
    when Tx.Exec and RowsAffected succeed; 0 and an ExecError wrapping the
    statement and the cause when Tx.Exec fails; 0 and an
    AffectedCountError when the count cannot be retrieved.  The driver is
    left as its last call left it. *)
Theorem transaction_Execute_spec (t : transaction sqlTx) (statement : string)
    (args : list value) (w : World) :
  let '((result, err), w1) := driver (Tx_Exec (Tx t) statement args) w in
  match err with
  | Some e =>
      run driver (transaction_Execute Quote t statement args) w
      = ((0%Z, Some (failure Quote (ExecError statement) e)), w1)
  | None =>
      let '((n, err'), w2) := driver (Result_RowsAffected result) w1 in
      match err' with
      | Some e =>
          run driver (transaction_Execute Quote t statement args) w
          = ((0%Z, Some (failure Quote AffectedCountError e)), w2)
      | None =>
          run driver (transaction_Execute Quote t statement args) w = ((n, None), w2)
      end
  end.
Proof.
  unfold transaction_Execute; simpl.
  destruct (driver (Tx_Exec (Tx t) statement args) w) as [[result [e |]] w1]; simpl.
  - now rewrite Wrapf_exec.
  - now destruct (driver (Result_RowsAffected result) w1) as [[n [e |]] w2].
Qed.

(** X2. Transaction.Query, whatever the driver: on success a cursor whose
    Next and Scan go to the rows Tx.Query returned (Scan with the
    destinations as given); on failure a nil cursor and a QueryError
    wrapping the statement and the cause. *)
Theorem transaction_Query_spec (t : transaction sqlTx) (statement : string)
    (args : list value) (w : World) :
  let '((rs, err), w1) := driver (Tx_Query (Tx t) statement args) w in
  match err with
  | Some e =>
      run driver (transaction_Query Quote t statement args) w
      = ((None, Some (failure Quote (QueryError statement) e)), w1)
  | None =>
      exists r : rows sqlRows,
        run driver (transaction_Query Quote t statement args) w = ((Some r, None), w1)
        /\ (forall w', trace driver (rows_Next r) w' = [Issued (Rows_Next rs)])
        /\ (forall dest w',
              trace driver (rows_Scan r dest) w' = [Issued (Rows_Scan rs dest)])
  end.
Proof.
  unfold transaction_Query; simpl.
  destruct (driver (Tx_Query (Tx t) statement args) w) as [[rs [e |]] w1]; simpl.
  - now rewrite Wrapf_query.
  - exists (mk_rows rs). split; [reflexivity |]. split.
    + intros w'. unfold rows_Next; simpl. now destruct (driver (Rows_Next rs) w').
    + intros dest w'. unfold rows_Scan; simpl.
      now destruct (driver (Rows_Scan rs dest) w') as [[e |] w2].
Qed.

(** X3. Database.Begin, whatever the driver: on success a transaction whose
    Execute, Query, Commit and Rollback start with a call on the
    transaction DB.Begin returned; on failure a nil transaction and a
    BeginError wrapping the cause. *)
Theorem database_Begin_spec (d : database sqlDB) (w : World) :
  let '((tx, err), w1) := driver (DB_Begin (DB d)) w in
  match err with
  | Some e =>
      run driver (database_Begin d) w = ((None, Some (failure Quote BeginError e)), w1)
  | None =>
      exists t : transaction sqlTx,
        run driver (database_Begin d) w = ((Some t, None), w1)
        /\ (forall s args w',
              hd_error (trace driver (transaction_Execute Quote t s args) w')
              = Some (Issued (Tx_Exec tx s args)))
        /\ (forall s args w',
              trace driver (transaction_Query Quote t s args) w'
              = [Issued (Tx_Query tx s args)])
        /\ (forall w', trace driver (transaction_Commit t) w' = [Issued (Tx_Commit tx)])
        /\ (forall w',
              trace driver (transaction_Rollback t) w' = [Issued (Tx_Rollback tx)])
  end.
Proof.
  unfold database_Begin; simpl.
  destruct (driver (DB_Begin (DB d)) w) as [[tx [e |]] w1]; simpl; [reflexivity |].
  exists (mk_transaction tx). split; [reflexivity |].
  repeat split; intros.
  - unfold transaction_Execute; simpl.
    now destruct (driver (Tx_Exec tx s args) w') as [[res [e |]] w2].
  - unfold transaction_Query; simpl.
    now destruct (driver (Tx_Query tx s args) w') as [[rs [e |]] w2].
  - unfold transaction_Commit; simpl.
    now destruct (driver (Tx_Commit tx) w') as [[e |] w2].
  - unfold transaction_Rollback; simpl.
    now destruct (driver (Tx_Rollback tx) w') as [[e |] w2].
Qed.

(** X4. The handle of New and NewDatabase, whatever the driver: when sql.Open
    succeeds, Execute, Query and Begin on the handle start with a call on
    the connection sql.Open returned, with the statement and the
    arguments as given. *)
Theorem New_handle_reaches_connection (dataSource : string) (w : World) :
  let '((db, err), w1) := driver (sql_Open "sqlite3" dataSource) w in
  match err with
  | Some _ =>
      fst (fst (run driver (New Quote dataSource) w)) = None
      /\ fst (fst (run driver (NewDatabase Quote dataSource) w)) = None
  | None =>
      exists h : database sqlDB,
        fst (fst (run driver (New Quote dataSource) w)) = Some h
        /\ fst (fst (run driver (NewDatabase Quote dataSource) w)) = Some h
        /\ (forall s args w',
              hd_error (trace driver (database_Execute Quote h s args) w')
              = Some (Issued (DB_Exec db s args)))
        /\ (forall s args w',
              trace driver (database_Query Quote h s args) w'
              = [Issued (DB_Query db s args)])
        /\ (forall w', trace driver (database_Begin h) w' = [Issued (DB_Begin db)])
  end.
Proof.
  unfold New, NewDatabase; simpl.
  destruct (driver (sql_Open "sqlite3" dataSource) w) as [[db [e |]] w1]; simpl;
    [now split |].
  exists (mk_database db). repeat split; intros.
  - unfold database_Execute; simpl.
    now destruct (driver (DB_Exec db s args) w') as [[res [e |]] w2].
  - unfold database_Query; simpl.
    now destruct (driver (DB_Query db s args) w') as [[rs [e |]] w2].
  - unfold database_Begin; simpl.
    now destruct (driver (DB_Begin db) w') as [[tx [e |]] w2].
Qed.

(** X5. No operation ends a transaction on its own: whatever the driver
    answers, failures included, a call of Tx.Commit or Tx.Rollback is made
    by Commit and Rollback only; Next makes none either. *)
Theorem finalized_on_request_only (op : operation sqlDB sqlTx sqlRows value)
    (r : rows sqlRows) (w : World) :
  existsb finalizes (trace driver (returned_error Quote op) w) = is_finalizing op
  /\ existsb finalizes (trace driver (rows_Next r) w) = false.
Proof.
  split.
  - destruct op; simpl;
      unfold New, NewDatabase, database_Execute, database_Query, database_Begin,
        transaction_Execute, transaction_Query, transaction_Commit,
        transaction_Rollback, rows_Scan; simpl;
      match goal with
      | |- context [driver ?c w] => destruct (driver c w) as [a w1]
      end;
      try destruct a as [a [e |]]; try destruct a as [e |]; simpl; try reflexivity;
      match goal with
      | |- context [driver ?c ?w'] => destruct (driver c w') as [[n [e |]] w2]
      end; reflexivity.
  - unfold rows_Next; simpl. now destruct (driver (Rows_Next (Rows r)) w).
Qed.

(** X6. From the error of an Execute the caller can tell whether the
    statement was executed: the context on top is that of
    AffectedCountError exactly when the driver's Exec succeeded, and that
    of ExecError, with the statement quoted, exactly when it failed. *)
Theorem Execute_error_tells_execution (d : database sqlDB) (t : transaction sqlTx)
    (statement : string) (args : list value) (w : World) (err : error cause) :
  (snd (fst (run driver (database_Execute Quote d statement args) w)) = Some err ->
   (hd_error (Context err) = Some (kind_context Quote AffectedCountError)
    <-> snd (fst (driver (DB_Exec (DB d) statement args) w)) = None)
   /\ (hd_error (Context err) = Some (kind_context Quote (ExecError statement))
       <-> snd (fst (driver (DB_Exec (DB d) statement args) w)) <> None))
  /\ (snd (fst (run driver (transaction_Execute Quote t statement args) w)) = Some err ->
      (hd_error (Context err) = Some (kind_context Quote AffectedCountError)
       <-> snd (fst (driver (Tx_Exec (Tx t) statement args) w)) = None)
      /\ (hd_error (Context err) = Some (kind_context Quote (ExecError statement))
          <-> snd (fst (driver (Tx_Exec (Tx t) statement args) w)) <> None)).
Proof.
  unfold database_Execute, transaction_Execute; simpl. split.
  - destruct (driver (DB_Exec (DB d) statement args) w) as [[result [e |]] w1]; simpl.
    + intros H; injection H as <-. rewrite Wrapf_exec; simpl.
      split; split; intros H; try discriminate; reflexivity.
    + destruct (driver (Result_RowsAffected result) w1) as [[n [e |]] w2]; simpl;
        intros H; [injection H as <- | discriminate]. simpl.
      split; split; intros H; try reflexivity; try discriminate. now elim H.
  - destruct (driver (Tx_Exec (Tx t) statement args) w) as [[result [e |]] w1]; simpl.
    + intros H; injection H as <-. rewrite Wrapf_exec; simpl.
      split; split; intros H; try discriminate; reflexivity.
    + destruct (driver (Result_RowsAffected result) w1) as [[n [e |]] w2]; simpl;
        intros H; [injection H as <- | discriminate]. simpl.
      split; split; intros H; try reflexivity; try discriminate. now elim H.
Qed.

End EveryDriver.

(** X7. The contexts of two kinds are equal only for kinds of the same
    operation, carrying texts that quote alike: the failing operation can
    be read off the message the package added. *)
Theorem context_tells_operation (Quote : string -> string) (k1 k2 : ErrorKind) :
  kind_context Quote k1 = kind_context Quote k2 ->
  same_operation k1 k2 = true
  /\ option_map Quote (text_of k1) = option_map Quote (text_of k2).
Proof.
  destruct k1, k2; simpl; intros H; try discriminate H;
    try (split; reflexivity).
  all: split; [reflexivity | f_equal].
  all: repeat match type of H with
              | String _ _ = String _ _ => injection H as H
              end; exact H.
Qed.

Lemma Execute_error_tells_execution_witness :
  snd (fst (run Demo.drv
              (database_Execute Demo.Quote (mk_database "test.db") "VACUUM" [])
              Demo.two_rows))
  = Some (failure Demo.Quote AffectedCountError (Low "RowsAffected is not supported"))
  /\ snd (fst (Demo.drv (DB_Exec "test.db" "VACUUM" []) Demo.two_rows)) = None.
Proof.
  assert (H : snd (fst (run Demo.drv
                          (database_Execute Demo.Quote (mk_database "test.db")
                             "VACUUM" [])
                          Demo.two_rows))
              = Some (failure Demo.Quote AffectedCountError
                        (Low "RowsAffected is not supported"))) by reflexivity.
  split; [exact H |].
  exact (proj1 (proj1 (proj1 (Execute_error_tells_execution Demo.Quote Demo.drv
                                (mk_database "test.db") (mk_transaction 0) "VACUUM" []
                                Demo.two_rows _) H)) eq_refl).
Defined.

Lemma context_tells_operation_witness :
  kind_context Demo.Quote (QueryError "SELECT id FROM t")
  = kind_context Demo.Quote (QueryError "SELECT id FROM t")
  /\ same_operation (QueryError "SELECT id FROM t") (QueryError "SELECT id FROM t") = true
  /\ option_map Demo.Quote (text_of (QueryError "SELECT id FROM t"))
     = option_map Demo.Quote (text_of (QueryError "SELECT id FROM t")).
Proof.
  split; [reflexivity |].
  exact (context_tells_operation Demo.Quote (QueryError "SELECT id FROM t")
           (QueryError "SELECT id FROM t") eq_refl).
Defined.

(** C3, as stated, fails: sql.Open does not open the file, so for a path
    that cannot be opened New returns a handle and a nil error; the
    failure only comes with Begin. *)
Lemma New_accepts_unopenable_path :
  Engine.refuse Demo.sql "/no/such/dir/test.db" = Some "unable to open database file"
  /\ fst (run Demo.lazy_drv (New Demo.Quote "/no/such/dir/test.db") (Engine.init Demo.sql))
     = (Some (mk_database "/no/such/dir/test.db"), None)
  /\ ~ (snd (fst (run Demo.lazy_drv (New Demo.Quote "/no/such/dir/test.db")
                    (Engine.init Demo.sql))) <> None)
  /\ fst (run Demo.lazy_drv (database_Begin (mk_database "/no/such/dir/test.db"))
            (Engine.init Demo.sql))
     = (None, Some (failure Demo.Quote BeginError (Low "unable to open database file"))).
Proof.
  split; [reflexivity |]. split; [reflexivity |]. split; [| reflexivity].
  intros H. now apply H.
Qed.

Lemma NewDatabase_spec_witness :
  Engine.refuse Demo.sql "/no/such/dir/test.db" = Some "unable to open database file"
  /\ run Demo.lazy_drv (database_Begin (mk_database "/no/such/dir/test.db"))
       (Engine.init Demo.sql)
     = ((None, Some (failure Demo.Quote BeginError (Low "unable to open database file"))),
        Engine.init Demo.sql).
Proof.
  assert (H : Engine.refuse Demo.sql "/no/such/dir/test.db"
              = Some "unable to open database file") by reflexivity.
  split; [exact H |].
  exact (proj2 (proj2 (proj2 (NewDatabase_spec Demo.Quote Demo.drv "/no/such/dir/test.db"
                                (Engine.init Demo.sql))
                         Demo.sql (Engine.init Demo.sql)))
           "unable to open database file" H).
Defined.
